(** * The chat page of investo-glow: a model of [Chat] and its handlers

    The component keeps four pieces of React state ([query], [loading],
    [messages], [assistantType]), reads the signed-in [user] from the
    authentication context, and talks to two collaborators: the assistant
    gateway (through [fetch]) and the [ai_queries] table (through the
    hosted-database client).

    The embedding follows the component handler by handler.  An [async]
    handler is cut at its [await]s: the part that runs before the first
    [await] is a function on the session, and each resumption is a function
    that takes the collaborator's answer.  Values that a handler reads from
    its closure (the [messages] of the render it was created in, the prompt,
    the mode) are stored in the in-flight record, so that a resumption uses
    the captured values and not the current state, as the code does. *)

From Stdlib Require Import String Ascii List ZArith Bool Lia.
Import ListNotations.
Open Scope string_scope.
Open Scope list_scope.

(* ===================================================================== *)
(** ** Strings *)

(** A string is a sequence of code units; the model covers code units
    below 256.  In that range the characters removed by
    [String.prototype.trim] (WhiteSpace and LineTerminator) are TAB, LF, VT,
    FF, CR, SPACE and NBSP. *)
Definition is_white_space (c : ascii) : bool :=
  match nat_of_ascii c with
  | 9 | 10 | 11 | 12 | 13 | 32 | 160 => true
  | _ => false
  end.

Fixpoint trimStart (s : string) : string :=
  match s with
  | EmptyString => EmptyString
  | String c rest => if is_white_space c then trimStart rest else s
  end.

Fixpoint trimEnd (s : string) : string :=
  match s with
  | EmptyString => EmptyString
  | String c rest =>
      match trimEnd rest with
      | EmptyString => if is_white_space c then EmptyString else String c EmptyString
      | kept => String c kept
      end
  end.

Definition trim (s : string) : string := trimEnd (trimStart s).

(** Truthiness of a string: every string but the empty one. *)
Definition truthy (s : string) : bool := negb (s =? "").

(* ===================================================================== *)
(** ** Data *)

(** [type AssistantType = 'general' | 'financial'] *)
Inductive AssistantType : Type := general | financial.

(** [type Message = { query: string; response: string }] *)
Record Message : Type := mkMessage { msg_query : string; response : string }.

(** The identity supplied by [useAuth]; only [user.id] is read. *)
Record User : Type := mkUser { id : string }.

Definition presetPrompts : list string :=
  [ "What's the current market sentiment for Bitcoin?";
    "Explain the concept of DeFi in simple terms";
    "What are the key factors affecting crypto prices?";
    "How do I create a diversified crypto portfolio?";
    "What are the risks of cryptocurrency investing?" ].

(** The response text of an exchange whose answer has not arrived. *)
Definition pending : string := "...".

(* ===================================================================== *)
(** ** Exceptions *)

Inductive Exception : Type :=
| FetchFailure (reason : string)      (* fetch rejects: no connection, CORS, ... *)
| ApiError (status : Z)               (* new Error(`API error: ${response.status}`) *)
| BodyNotJson                         (* response.json() rejects *)
| NullMember                          (* reading .response of null *)
| StoreError (message : string).      (* the error of an insert *)

(** A computation either returns a value or throws. *)
Inductive Result (A : Type) : Type :=
| Return (a : A)
| Throw (e : Exception).
Arguments Return {A} a.
Arguments Throw {A} e.

Definition bind {A B : Type} (c : Result A) (k : A -> Result B) : Result B :=
  match c with
  | Return a => k a
  | Throw e => Throw e
  end.

Definition try_catch {A : Type} (body : Result A) (handler : Exception -> Result A)
  : Result A :=
  match body with
  | Return a => Return a
  | Throw e => handler e
  end.

Notation "x <- c ;; k" := (bind c (fun x => k))
  (at level 61, c at next level, right associativity).
Notation "'try' b 'catch' h" := (try_catch b h)
  (at level 10, b at level 200, h at level 200).

(* ===================================================================== *)
(** ** The assistant gateway *)

(** The request built by [callChatAPI]: a POST with a JSON body
    [{ query: prompt }]. *)
Record Request : Type := mkRequest {
  url : string;
  method : string;
  content_type : string;
  body_query : string
}.

(** What reading [data.response] yields on a parsed body: nothing (the
    member is absent, or [data] is not an object), [null], or a string;
    [callChatAPI] is declared to return a string. *)
Inductive Member : Type :=
| Absent
| Null
| Text (s : string).

(** The value [response.json()] resolves to: [null], whose [response]
    cannot be read, or a value with the member above. *)
Inductive Data : Type :=
| JsonNull
| Json (response_member : Member).

(** The body of a response: not JSON, so that [response.json()] rejects, or
    the value it parses to. *)
Inductive Body : Type :=
| NotJson
| Parsed (data : Data).

Record Response : Type := mkResponse { status : Z; body : Body }.

(** The answer of [fetch]: the promise rejects, or resolves to a response. *)
Inductive FetchOutcome : Type :=
| Rejected (e : Exception)
| Responded (r : Response).

(** [response.ok]: the status is in the range 200-299. *)
Definition ok (r : Response) : bool :=
  (200 <=? status r)%Z && (status r <=? 299)%Z.

Definition await_fetch (o : FetchOutcome) : Result Response :=
  match o with
  | Rejected e => Throw e
  | Responded r => Return r
  end.

(** [await response.json()] *)
Definition json (r : Response) : Result Data :=
  match body r with
  | NotJson => Throw BodyNotJson
  | Parsed data => Return data
  end.

(** [data.response] *)
Definition get_response (data : Data) : Result Member :=
  match data with
  | JsonNull => Throw NullMember
  | Json m => Return m
  end.

(** [m || fallback] *)
Definition or_else (m : Member) (fallback : string) : string :=
  match m with
  | Text s => if truthy s then s else fallback
  | Absent | Null => fallback
  end.

Definition chat_endpoint : string := "https://investo-server-dlii.onrender.com/chat".
Definition agent_endpoint : string := "https://investo-server-dlii.onrender.com/agent".

Definition no_answer : string := "Sorry, I couldn't process your request.".
Definition connection_error : string :=
  "Sorry, there was an error connecting to the assistant. Please try again later.".

Definition endpoint_of (assistantType : AssistantType) : string :=
  match assistantType with
  | general => chat_endpoint
  | financial => agent_endpoint
  end.

Definition chat_request (assistantType : AssistantType) (prompt : string) : Request :=
  {| url := endpoint_of assistantType;
     method := "POST";
     content_type := "application/json";
     body_query := prompt |}.

(** [callChatAPI]; [fetch] is the network as the call finds it.  The
    [console.error] of the handler is not modelled. *)
Definition callChatAPI (fetch : Request -> FetchOutcome)
    (assistantType : AssistantType) (prompt : string) : Result string :=
  try
    (response <- await_fetch (fetch (chat_request assistantType prompt)) ;;
     if negb (ok response) then Throw (ApiError (status response))
     else
       data <- json response ;;
       member <- get_response data ;;
       Return (or_else member no_answer))
  catch (fun error => Return connection_error).

(* ===================================================================== *)
(** ** The conversation log *)

(** The record inserted into [ai_queries]. *)
Record Row : Type := mkRow {
  user_id : string;
  row_query : string;
  row_response : string;
  assistant_type : AssistantType
}.

(** The answer of the insert: [{ error: null }], [{ error }] with an error,
    or a rejected promise. *)
Inductive InsertOutcome : Type :=
| Inserted
| InsertError (e : Exception)
| InsertRejected (e : Exception).

(** [const { error } = await supabase...insert(...); if (error) throw error;] *)
Definition await_insert (o : InsertOutcome) : Result unit :=
  match o with
  | Inserted => Return tt
  | InsertError e => Throw e
  | InsertRejected e => Throw e
  end.

(* ===================================================================== *)
(** ** The session *)

Record ToastArgs : Type := mkToast {
  variant : string;
  title : string;
  description : string
}.

(** What the component does to the world outside its state. *)
Inductive Effect : Type :=
| Fetch (r : Request)
| Insert (row : Row)
| Toast (t : ToastArgs)
| ScrollLater                     (* setTimeout(scrollToBottom, 100) *)
| Focus.                          (* inputRef.current?.focus() *)

(** Where a running [handleSubmit] is suspended. *)
Inductive Await : Type :=
| AwaitGateway
| AwaitInsert (aiResponse : string).

(** A suspended [handleSubmit] with the values of its closure. *)
Record Flight : Type := mkFlight {
  cl_messages : list Message;
  cl_promptText : string;
  cl_user : User;
  cl_assistantType : AssistantType;
  suspended : Await
}.

Record Session : Type := mkSession {
  query : string;
  loading : bool;
  messages : list Message;
  assistantType : AssistantType;
  user : option User;
  inflight : option Flight;
  effects : list Effect
}.

Definition setQuery (v : string) (s : Session) : Session :=
  mkSession v (loading s) (messages s) (assistantType s) (user s) (inflight s) (effects s).
Definition setLoading (b : bool) (s : Session) : Session :=
  mkSession (query s) b (messages s) (assistantType s) (user s) (inflight s) (effects s).
Definition setMessages (l : list Message) (s : Session) : Session :=
  mkSession (query s) (loading s) l (assistantType s) (user s) (inflight s) (effects s).
Definition setAssistantType (a : AssistantType) (s : Session) : Session :=
  mkSession (query s) (loading s) (messages s) a (user s) (inflight s) (effects s).
Definition setUser (u : option User) (s : Session) : Session :=
  mkSession (query s) (loading s) (messages s) (assistantType s) u (inflight s) (effects s).
Definition setInflight (f : option Flight) (s : Session) : Session :=
  mkSession (query s) (loading s) (messages s) (assistantType s) (user s) f (effects s).
Definition emit (e : Effect) (s : Session) : Session :=
  mkSession (query s) (loading s) (messages s) (assistantType s) (user s) (inflight s)
    (effects s ++ [e]).

(** The first render. *)
Definition initial (u : option User) : Session :=
  mkSession "" false [] general u None [].

Definition error_toast : ToastArgs :=
  {| variant := "destructive";
     title := "Error";
     description := "Failed to process your request. Please try again." |}.

(** [handleAssistantChange] *)
Definition handleAssistantChange (value : AssistantType) (s : Session) : Session :=
  setAssistantType value s.

(** The guard of [handleSubmit]:
    [!promptText.trim() || !user || loading]. *)
Definition rejects (promptText : string) (s : Session) : bool :=
  negb (truthy (trim promptText)) ||
  match user s with None => true | Some _ => false end ||
  loading s.

(** The [finally] block of [handleSubmit]. *)
Definition handleSubmit_finally (s : Session) : Session :=
  setInflight None (emit Focus (setLoading false s)).

(** The [catch] block of [handleSubmit], followed by its [finally]. *)
Definition handleSubmit_catch (f : Flight) (s : Session) : Session :=
  handleSubmit_finally (setMessages (cl_messages f) (emit (Toast error_toast) s)).

(** [handleSubmit] up to its first [await]: the guard, the optimistic
    append, the cleared draft and the request sent by [callChatAPI]. *)
Definition handleSubmit (promptText : string) (s : Session) : Session :=
  if rejects promptText s then s
  else
    match user s with
    | None => s
    | Some u =>
        let updatedMessages := messages s ++ [mkMessage (trim promptText) pending] in
        let f := mkFlight (messages s) promptText u (assistantType s) AwaitGateway in
        setInflight (Some f)
          (emit (Fetch (chat_request (assistantType s) (trim promptText)))
             (setQuery "" (setMessages updatedMessages (setLoading true s))))
    end.

(** [handleSubmit] resumed with the answer of the gateway: the rest of
    [callChatAPI], the replacement of the pending exchange and the insert. *)
Definition handleSubmit_gateway (o : FetchOutcome) (s : Session) : Session :=
  match inflight s with
  | Some f =>
      match suspended f with
      | AwaitGateway =>
          let prompt := trim (cl_promptText f) in
          match callChatAPI (fun _ => o) (cl_assistantType f) prompt with
          | Return aiResponse =>
              let finalMessages := cl_messages f ++ [mkMessage prompt aiResponse] in
              let row := mkRow (id (cl_user f)) prompt aiResponse (cl_assistantType f) in
              setInflight
                (Some (mkFlight (cl_messages f) (cl_promptText f) (cl_user f)
                         (cl_assistantType f) (AwaitInsert aiResponse)))
                (emit (Insert row) (setMessages finalMessages s))
          | Throw _ => handleSubmit_catch f s
          end
      | AwaitInsert _ => s
      end
  | None => s
  end.

(** [handleSubmit] resumed with the answer of the insert. *)
Definition handleSubmit_insert (o : InsertOutcome) (s : Session) : Session :=
  match inflight s with
  | Some f =>
      match suspended f with
      | AwaitInsert _ =>
          match await_insert o with
          | Return _ => handleSubmit_finally (emit ScrollLater s)
          | Throw _ => handleSubmit_catch f s
          end
      | AwaitGateway => s
      end
  | None => s
  end.

(** [handleKeyDown] *)
Definition handleKeyDown (key : string) (shiftKey : bool) (s : Session) : Session :=
  if (key =? "Enter") && negb shiftKey then handleSubmit (query s) s else s.

(** What can happen to a session.  The input and the preset buttons are
    [disabled={loading}]. *)
Inductive Event : Type :=
| Submit (promptText : string)          (* handleSubmit(promptText) *)
| PresetClick (index : nat)             (* a preset button *)
| FormSubmit                            (* the form's onSubmit *)
| KeyDown (key : string) (shiftKey : bool)
| Change (value : string)               (* the input's onChange *)
| SelectMode (value : AssistantType)    (* the selector's onValueChange *)
| AuthChange (u : option User)          (* the authentication context *)
| GatewayReply (o : FetchOutcome)
| InsertReply (o : InsertOutcome).

Definition step (e : Event) (s : Session) : Session :=
  match e with
  | Submit promptText => handleSubmit promptText s
  | PresetClick index =>
      if loading s then s
      else match nth_error presetPrompts index with
           | Some prompt => handleSubmit prompt s
           | None => s
           end
  | FormSubmit => handleSubmit (query s) s
  | KeyDown key shiftKey => if loading s then s else handleKeyDown key shiftKey s
  | Change value => if loading s then s else setQuery value s
  | SelectMode value => handleAssistantChange value s
  | AuthChange u => setUser u s
  | GatewayReply o => handleSubmit_gateway o s
  | InsertReply o => handleSubmit_insert o s
  end.

Fixpoint run (trace : list Event) (s : Session) : Session :=
  match trace with
  | [] => s
  | e :: rest => run rest (step e s)
  end.

(** One submission from acceptance to its end, nothing else happening. *)
Definition settle (promptText : string) (g : FetchOutcome) (w : InsertOutcome)
    (s : Session) : Session :=
  run [Submit promptText; GatewayReply g; InsertReply w] s.

(** The notifications raised so far. *)
Definition is_toast (e : Effect) : bool :=
  match e with Toast _ => true | _ => false end.
Definition notifications (s : Session) : nat :=
  length (filter is_toast (effects s)).

(** The events of the user and of the context, as opposed to the answers
    of the two collaborators. *)
Definition is_reply (e : Event) : bool :=
  match e with GatewayReply _ | InsertReply _ => true | _ => false end.

Definition quiet (trace : list Event) : bool :=
  forallb (fun e => negb (is_reply e)) trace.

(** One submission with other events of the user falling between its
    steps. *)
Definition submission (promptText : string) (before : list Event) (g : FetchOutcome)
    (after : list Event) (w : InsertOutcome) : list Event :=
  Submit promptText :: before ++ GatewayReply g :: after ++ [InsertReply w].

(** The gateway did not answer with a 2xx status: the promise rejected or
    the status is outside 200-299. *)
Definition failed (o : FetchOutcome) : bool :=
  match o with
  | Rejected _ => true
  | Responded r => negb (ok r)
  end.

(** The insert reported an error or rejected. *)
Definition insert_failed (w : InsertOutcome) : bool :=
  match w with
  | Inserted => false
  | InsertError _ | InsertRejected _ => true
  end.

(** An exchange whose response is not the pending text. *)
Definition resolved (m : Message) : Prop := response m <> pending.

(** A gateway answer whose text is the pending text itself. *)
Definition echoes_pending (e : Event) : bool :=
  match e with
  | GatewayReply (Responded r) =>
      ok r && match body r with
              | Parsed (Json (Text t)) => t =? pending
              | _ => false
              end
  | _ => false
  end.

(** While a submission is running, the events of the user leave the
    conversation, the draft, the flag, the suspended handler and the
    effects alone: two sessions that agree on these. *)
Definition same_flight (s s' : Session) : Prop :=
  loading s' = loading s /\ messages s' = messages s /\ query s' = query s /\
  inflight s' = inflight s /\ effects s' = effects s.

(** The flag and the suspended handler go together, the exchanges kept for
    a rollback are resolved, and so is the one waiting for the insert. *)
Definition consistent (s : Session) : Prop :=
  match inflight s with
  | None => loading s = false /\ Forall resolved (messages s)
  | Some f =>
      loading s = true /\ Forall resolved (cl_messages f) /\
      match suspended f with
      | AwaitGateway => True
      | AwaitInsert t =>
          messages s = cl_messages f ++ [mkMessage (trim (cl_promptText f)) t] /\
          t <> pending
      end
  end.

(** A string that is empty or begins with a character [trim] keeps. *)
Definition starts_clean (s : string) : Prop :=
  match s with
  | EmptyString => True
  | String c _ => is_white_space c = false
  end.

(** An exchange whose query is not empty and is what [trim] leaves of it. *)
Definition tidy (m : Message) : Prop :=
  msg_query m <> "" /\ trim (msg_query m) = msg_query m.

(** The shape of a session between and during submissions: the flag is
    set exactly while a handler is suspended, and then the conversation is
    the one the handler captured followed by the one exchange of its
    prompt. *)
Definition orderly (s : Session) : Prop :=
  Forall tidy (messages s) /\
  match inflight s with
  | None => loading s = false
  | Some f =>
      loading s = true /\ Forall tidy (cl_messages f) /\
      truthy (trim (cl_promptText f)) = true /\
      exists r, messages s = cl_messages f ++ [mkMessage (trim (cl_promptText f)) r]
  end.

(** The exchanges a session will have once nothing is suspended, should the
    running submission be rolled back. *)
Definition settled_messages (s : Session) : list Message :=
  match inflight s with
  | None => messages s
  | Some f => cl_messages f
  end.

(** The session still has the exchanges [base] at its start. *)
Definition keeps (base : list Message) (s : Session) : Prop :=
  exists rest, settled_messages s = base ++ rest.

(** An answer of the insert that reports an error or rejects. *)
Definition failing_insert (e : Event) : bool :=
  match e with
  | InsertReply w => insert_failed w
  | _ => false
  end.

(** The texts and the gateway call are unfolded by hand in the proofs. *)
Arguments trim : simpl never.
Arguments callChatAPI : simpl never.
Arguments chat_request : simpl never.
Arguments pending : simpl never.
Arguments error_toast : simpl never.

(** Evaluates the state updates of a handler. *)
Ltac session :=
  cbv [handleSubmit_insert handleSubmit_gateway handleSubmit_finally handleSubmit_catch
       handleAssistantChange await_insert
       setInflight emit setLoading setMessages setQuery setAssistantType setUser
       query loading messages assistantType user inflight effects
       cl_messages cl_promptText cl_user cl_assistantType suspended].

(* ===================================================================== *)
(** ** Runs on concrete inputs *)

Definition alice : User := mkUser "u-1".
Definition bullish : FetchOutcome := Responded (mkResponse 200 (Parsed (Json (Text "Bullish")))).
Definition status_500 : FetchOutcome := Responded (mkResponse 500 NotJson).
Definition write_error : InsertOutcome := InsertError (StoreError "permission denied").

Example trim_blank : trim "   " = "".
Proof. reflexivity. Qed.

Example trim_inner : trim "  buy  low " = "buy  low".
Proof. reflexivity. Qed.

Example trim_line_ends :
  trim (String (ascii_of_nat 10) (String (ascii_of_nat 160) "x")) = "x".
Proof. reflexivity. Qed.

Example call_bullish : callChatAPI (fun _ => bullish) general "hi" = Return "Bullish".
Proof. reflexivity. Qed.

Example call_500 : callChatAPI (fun _ => status_500) financial "hi" = Return connection_error.
Proof. reflexivity. Qed.

Example call_null_body :
  callChatAPI (fun _ => Responded (mkResponse 200 (Parsed JsonNull))) general "hi"
  = Return connection_error.
Proof. reflexivity. Qed.

Example call_requests_agent :
  url (chat_request financial "hi") = agent_endpoint.
Proof. reflexivity. Qed.

Example pending_shown :
  messages (run [Submit " hi "] (initial (Some alice))) = [mkMessage "hi" "..."].
Proof. reflexivity. Qed.

Example second_submit_ignored :
  run [Submit "hi"; Submit "again"] (initial (Some alice))
  = run [Submit "hi"] (initial (Some alice)).
Proof. reflexivity. Qed.

Example enter_submits :
  messages (run [Change "hi"; KeyDown "Enter" false] (initial (Some alice)))
  = [mkMessage "hi" "..."].
Proof. reflexivity. Qed.

Example shift_enter_does_not :
  messages (run [Change "hi"; KeyDown "Enter" true] (initial (Some alice))) = [].
Proof. reflexivity. Qed.

(* ===================================================================== *)
(** ** The gateway call *)

Lemma try_catch_returns (A : Type) (b : Result A) (h : Exception -> Result A) :
  (forall e, exists a, h e = Return a) -> exists a, try_catch b h = Return a.
Proof.
  intros Hh. destruct b as [a | e]; simpl.
  - now exists a.
  - apply Hh.
Qed.

Lemma callChatAPI_returns fetch a p : exists t, callChatAPI fetch a p = Return t.
Proof.
  unfold callChatAPI. apply try_catch_returns.
  intros _. now exists connection_error.
Qed.

(** The answer does not depend on the request, only on what came back. *)
Lemma callChatAPI_rejected fetch a p e :
  fetch (chat_request a p) = Rejected e ->
  callChatAPI fetch a p = Return connection_error.
Proof. intros H. unfold callChatAPI. now rewrite H. Qed.

Lemma callChatAPI_not_ok fetch a p r :
  fetch (chat_request a p) = Responded r -> ok r = false ->
  callChatAPI fetch a p = Return connection_error.
Proof. intros H Hok. unfold callChatAPI. rewrite H. simpl. now rewrite Hok. Qed.

Lemma callChatAPI_ok fetch a p r m :
  fetch (chat_request a p) = Responded r -> ok r = true -> body r = Parsed (Json m) ->
  callChatAPI fetch a p = Return (or_else m no_answer).
Proof.
  intros H Hok Hb. unfold callChatAPI. rewrite H. simpl. rewrite Hok. simpl.
  unfold json. now rewrite Hb.
Qed.

Lemma callChatAPI_text o a p t :
  callChatAPI (fun _ => o) a p = Return t ->
  t = connection_error \/ t = no_answer \/
  exists r, o = Responded r /\ ok r = true /\ body r = Parsed (Json (Text t)) /\
            truthy t = true.
Proof.
  unfold callChatAPI. destruct o as [e | r]; simpl.
  - intros [= <-]. now left.
  - destruct (ok r) eqn:Hok; simpl; [| intros [= <-]; now left].
    unfold json. destruct (body r) as [| [| m]] eqn:Hb; simpl;
      try (intros [= <-]; now left).
    destruct m as [| | s]; simpl; try (intros [= <-]; right; now left).
    destruct (truthy s) eqn:Hs; intros [= <-].
    + right. right. exists r. now rewrite Hb.
    + right. now left.
Qed.

Lemma callChatAPI_mode_free o a a' p p' :
  callChatAPI (fun _ => o) a p = callChatAPI (fun _ => o) a' p'.
Proof. reflexivity. Qed.

(* ===================================================================== *)
(** ** Notifications *)

Lemma notifications_emit e s :
  notifications (emit e s) = notifications s + (if is_toast e then 1 else 0).
Proof.
  unfold notifications, emit; simpl. rewrite filter_app, length_app. simpl.
  now destruct (is_toast e).
Qed.

(* ===================================================================== *)
(** ** One submission *)

Lemma rejects_false p s :
  rejects p s = false ->
  truthy (trim p) = true /\ (exists u, user s = Some u) /\ loading s = false.
Proof.
  unfold rejects. intros H.
  apply orb_false_iff in H as [H Hl]. apply orb_false_iff in H as [Ht Hu].
  apply negb_false_iff in Ht. destruct (user s) as [u |]; [| discriminate].
  repeat split; eauto.
Qed.

Lemma handleSubmit_rejected p s : rejects p s = true -> handleSubmit p s = s.
Proof. intros H. unfold handleSubmit. now rewrite H. Qed.

Lemma handleSubmit_accepted p s u :
  rejects p s = false -> user s = Some u ->
  handleSubmit p s =
  mkSession "" true (messages s ++ [mkMessage (trim p) pending]) (assistantType s)
    (user s)
    (Some (mkFlight (messages s) p u (assistantType s) AwaitGateway))
    (effects s ++ [Fetch (chat_request (assistantType s) (trim p))]).
Proof.
  intros H Hu. unfold handleSubmit. rewrite H.
  pattern (user s) at 1. rewrite Hu. session. reflexivity.
Qed.

Lemma same_flight_refl s : same_flight s s.
Proof. repeat split. Qed.

Lemma same_flight_trans s1 s2 s3 :
  same_flight s1 s2 -> same_flight s2 s3 -> same_flight s1 s3.
Proof.
  unfold same_flight. intros (?&?&?&?&?) (?&?&?&?&?).
  repeat split; congruence.
Qed.

Lemma step_busy e s :
  loading s = true -> is_reply e = false -> same_flight s (step e s).
Proof.
  intros Hl He.
  assert (Hs : forall p, handleSubmit p s = s).
  { intros p. apply handleSubmit_rejected. unfold rejects.
    rewrite Hl. now rewrite !orb_true_r. }
  destruct e; simpl in *; try discriminate;
    rewrite ?Hl, ?Hs; try apply same_flight_refl.
  - repeat split.
  - repeat split.
Qed.

Lemma run_busy trace s :
  loading s = true -> quiet trace = true -> same_flight s (run trace s).
Proof.
  revert s. induction trace as [| e trace IH]; intros s Hl Hq; simpl.
  - apply same_flight_refl.
  - simpl in Hq. apply andb_true_iff in Hq as [He Hq].
    apply negb_true_iff in He.
    pose proof (step_busy e s Hl He) as Hstep.
    apply same_flight_trans with (step e s); [exact Hstep |].
    apply IH; [| exact Hq]. destruct Hstep as (-> & _). exact Hl.
Qed.

Lemma run_app l1 l2 s : run (l1 ++ l2) s = run l2 (run l1 s).
Proof. revert s. induction l1 as [| e l1 IH]; intros s; simpl; auto. Qed.

(** The resumptions read the session only through the fields that
    [same_flight] keeps. *)
Lemma handleSubmit_gateway_same o s s' :
  same_flight s s' ->
  same_flight (handleSubmit_gateway o s) (handleSubmit_gateway o s').
Proof.
  intros Hs. pose proof Hs as (Hl & Hm & Hq & Hf & He).
  unfold handleSubmit_gateway. rewrite Hf.
  destruct (inflight s) as [f |]; [| exact Hs].
  destruct (suspended f); [| exact Hs].
  destruct (callChatAPI _ _ _); unfold same_flight; simpl; rewrite ?He, ?Hq, ?Hl, ?Hm;
    repeat split.
Qed.

Lemma handleSubmit_insert_same w s s' :
  same_flight s s' ->
  same_flight (handleSubmit_insert w s) (handleSubmit_insert w s').
Proof.
  intros Hs. pose proof Hs as (Hl & Hm & Hq & Hf & He).
  unfold handleSubmit_insert. rewrite Hf.
  destruct (inflight s) as [f |]; [| exact Hs].
  destruct (suspended f); [exact Hs |].
  destruct (await_insert w); unfold same_flight; simpl; rewrite ?He, ?Hq, ?Hl, ?Hm;
    repeat split.
Qed.

Lemma handleSubmit_gateway_loading o s :
  loading (handleSubmit_gateway o s) = loading s.
Proof.
  unfold handleSubmit_gateway.
  destruct (inflight s) as [f |]; [| reflexivity].
  destruct (suspended f); [| reflexivity].
  destruct (callChatAPI_returns (fun _ => o) (cl_assistantType f) (trim (cl_promptText f)))
    as [t ->].
  reflexivity.
Qed.

(** Other events of the user falling between the steps of a submission do
    not change how it ends. *)
Lemma run_submission p before g after w s :
  rejects p s = false -> quiet before = true -> quiet after = true ->
  same_flight (settle p g w s) (run (submission p before g after w) s).
Proof.
  intros Hr Hb Ha. unfold settle, submission. simpl.
  destruct (rejects_false _ _ Hr) as (_ & [u Hu] & _).
  assert (Hl : loading (handleSubmit p s) = true)
    by (rewrite (handleSubmit_accepted p s u Hr Hu); reflexivity).
  set (s1 := handleSubmit p s) in *.
  rewrite run_app. simpl. rewrite run_app. simpl.
  pose proof (run_busy before s1 Hl Hb) as H1.
  set (s1' := run before s1) in *.
  pose proof (handleSubmit_gateway_same g s1 s1' H1) as H2.
  assert (Hl2 : loading (handleSubmit_gateway g s1') = true).
  { rewrite handleSubmit_gateway_loading. destruct H1 as (-> & _). exact Hl. }
  pose proof (run_busy after _ Hl2 Ha) as H3.
  apply handleSubmit_insert_same.
  eapply same_flight_trans; [exact H2 | exact H3].
Qed.

Lemma settle_inserted p g s u t :
  rejects p s = false -> user s = Some u ->
  callChatAPI (fun _ => g) (assistantType s) (trim p) = Return t ->
  settle p g Inserted s =
  mkSession "" false (messages s ++ [mkMessage (trim p) t]) (assistantType s) (user s)
    None
    (effects s ++ [Fetch (chat_request (assistantType s) (trim p));
                   Insert (mkRow (id u) (trim p) t (assistantType s));
                   ScrollLater; Focus]).
Proof.
  intros Hr Hu Ht. unfold settle. cbn [run step].
  rewrite (handleSubmit_accepted p s u Hr Hu).
  unfold handleSubmit_gateway at 1. cbn [inflight suspended cl_assistantType cl_promptText].
  rewrite Ht. session.
  rewrite <- 3 app_assoc. reflexivity.
Qed.

Lemma settle_insert_failed p g w s u t :
  rejects p s = false -> user s = Some u ->
  callChatAPI (fun _ => g) (assistantType s) (trim p) = Return t ->
  insert_failed w = true ->
  settle p g w s =
  mkSession "" false (messages s) (assistantType s) (user s) None
    (effects s ++ [Fetch (chat_request (assistantType s) (trim p));
                   Insert (mkRow (id u) (trim p) t (assistantType s));
                   Toast error_toast; Focus]).
Proof.
  intros Hr Hu Ht Hw. unfold settle. cbn [run step].
  rewrite (handleSubmit_accepted p s u Hr Hu).
  unfold handleSubmit_gateway at 1. cbn [inflight suspended cl_assistantType cl_promptText].
  rewrite Ht.
  destruct w; try discriminate; session;
    rewrite <- 3 app_assoc; reflexivity.
Qed.

Lemma notifications_app s l :
  length (filter is_toast (effects s ++ l)) = notifications s + length (filter is_toast l).
Proof. unfold notifications. now rewrite filter_app, length_app. Qed.

(* ===================================================================== *)
(** ** The state between submissions *)

Lemma callChatAPI_resolved o a p t :
  echoes_pending (GatewayReply o) = false ->
  callChatAPI (fun _ => o) a p = Return t -> t <> pending.
Proof.
  intros He Ht. destruct (callChatAPI_text _ _ _ _ Ht) as [-> | [-> | (r & -> & Hok & Hb & _)]];
    try discriminate.
  simpl in He. rewrite Hok, Hb in He. simpl in He.
  intros ->. discriminate.
Qed.

Lemma handleSubmit_consistent p s : consistent s -> consistent (handleSubmit p s).
Proof.
  intros Hc. destruct (rejects p s) eqn:Hr.
  - now rewrite handleSubmit_rejected.
  - destruct (rejects_false _ _ Hr) as (_ & [u Hu] & Hl).
    rewrite (handleSubmit_accepted p s u Hr Hu).
    unfold consistent in *. simpl.
    destruct (inflight s) as [f |].
    + destruct Hc as (Hc & _). congruence.
    + destruct Hc as (_ & Hc). auto.
Qed.

Lemma step_consistent e s :
  echoes_pending e = false -> consistent s -> consistent (step e s).
Proof.
  intros He Hc. destruct e as [p | i | | k sh | v | a | u | o | w]; simpl.
  - now apply handleSubmit_consistent.
  - destruct (loading s); [exact Hc |].
    destruct (nth_error presetPrompts i); [now apply handleSubmit_consistent | exact Hc].
  - now apply handleSubmit_consistent.
  - destruct (loading s); [exact Hc |]. unfold handleKeyDown.
    destruct ((k =? "Enter") && negb sh); [now apply handleSubmit_consistent | exact Hc].
  - destruct (loading s); exact Hc.
  - exact Hc.
  - exact Hc.
  - unfold handleSubmit_gateway.
    destruct (inflight s) as [f |] eqn:Hf; [| exact Hc].
    destruct (suspended f) eqn:Hs; [| exact Hc].
    unfold consistent in Hc. rewrite Hf in Hc. destruct Hc as (Hl & Hcl & _).
    destruct (callChatAPI _ _ _) as [t | x] eqn:Ht.
    + unfold consistent. simpl. repeat split; auto.
      eapply callChatAPI_resolved; eauto.
    + unfold consistent. simpl. auto.
  - unfold handleSubmit_insert.
    destruct (inflight s) as [f |] eqn:Hf; [| exact Hc].
    destruct (suspended f) as [| t] eqn:Hs; [exact Hc |].
    unfold consistent in Hc. rewrite Hf, Hs in Hc. destruct Hc as (Hl & Hcl & Hm & Ht).
    destruct (await_insert w); unfold consistent; simpl; split; auto.
    rewrite Hm. apply Forall_app. split; [exact Hcl |].
    constructor; [exact Ht | constructor].
Qed.

Lemma run_consistent trace s :
  forallb (fun e => negb (echoes_pending e)) trace = true ->
  consistent s -> consistent (run trace s).
Proof.
  revert s. induction trace as [| e trace IH]; intros s Hq Hc; simpl; [exact Hc |].
  simpl in Hq. apply andb_true_iff in Hq as [He Hq]. apply negb_true_iff in He.
  apply IH; [exact Hq |]. now apply step_consistent.
Qed.

Lemma initial_consistent u : consistent (initial u).
Proof. unfold consistent. simpl. split; [reflexivity | constructor]. Qed.

(** How a submission ends, with other events of the user in between. *)
Lemma submission_insert_failed p before g after w s :
  rejects p s = false -> quiet before = true -> quiet after = true ->
  insert_failed w = true ->
  loading (run (submission p before g after w) s) = false /\
  messages (run (submission p before g after w) s) = messages s /\
  query (run (submission p before g after w) s) = "" /\
  inflight (run (submission p before g after w) s) = None /\
  notifications (run (submission p before g after w) s) = notifications s + 1.
Proof.
  intros Hr Hb Ha Hw.
  destruct (rejects_false _ _ Hr) as (_ & [u Hu] & _).
  destruct (callChatAPI_returns (fun _ => g) (assistantType s) (trim p)) as [t Ht].
  destruct (run_submission p before g after w s Hr Hb Ha) as (Hl & Hm & Hq & Hf & He).
  rewrite (settle_insert_failed p g w s u t Hr Hu Ht Hw) in Hl, Hm, Hq, Hf, He.
  cbn [loading messages query inflight effects] in Hl, Hm, Hq, Hf, He.
  repeat split; try assumption.
  unfold notifications at 1. rewrite He, notifications_app. reflexivity.
Qed.

Lemma submission_inserted p before g after s t :
  rejects p s = false -> quiet before = true -> quiet after = true ->
  callChatAPI (fun _ => g) (assistantType s) (trim p) = Return t ->
  loading (run (submission p before g after Inserted) s) = false /\
  messages (run (submission p before g after Inserted) s)
    = messages s ++ [mkMessage (trim p) t] /\
  query (run (submission p before g after Inserted) s) = "" /\
  inflight (run (submission p before g after Inserted) s) = None /\
  notifications (run (submission p before g after Inserted) s) = notifications s.
Proof.
  intros Hr Hb Ha Ht.
  destruct (rejects_false _ _ Hr) as (_ & [u Hu] & _).
  destruct (run_submission p before g after Inserted s Hr Hb Ha) as (Hl & Hm & Hq & Hf & He).
  rewrite (settle_inserted p g s u t Hr Hu Ht) in Hl, Hm, Hq, Hf, He.
  cbn [loading messages query inflight effects] in Hl, Hm, Hq, Hf, He.
  repeat split; try assumption.
  unfold notifications at 1. rewrite He, notifications_app. simpl. lia.
Qed.

Lemma submission_alone p g w : submission p [] g [] w = [Submit p; GatewayReply g; InsertReply w].
Proof. reflexivity. Qed.

Lemma insert_failed_cases w : insert_failed w = false -> w = Inserted.
Proof. destruct w; simpl; congruence. Qed.

(* ===================================================================== *)
(** ** The claims *)

(** C1 (amended).  For every accepted submission whose gateway call
    succeeds but whose write to the conversation log fails, once the
    submission has settled the conversation is the one before the call (its
    length is the length before the call: the finalized exchange is taken
    out again), exactly one error notification has been raised, and the
    busy flag is clear.  Other events of the user may fall in between. *)
Theorem log_failure_rolls_back p before g after w s :
  rejects p s = false -> failed g = false -> insert_failed w = true ->
  quiet before = true -> quiet after = true ->
  messages (run (submission p before g after w) s) = messages s /\
  length (messages (run (submission p before g after w) s)) = length (messages s) /\
  notifications (run (submission p before g after w) s) = notifications s + 1 /\
  loading (run (submission p before g after w) s) = false.
Proof.
  intros Hr _ Hw Hb Ha.
  destruct (submission_insert_failed p before g after w s Hr Hb Ha Hw)
    as (Hl & Hm & _ & _ & Hn).
  rewrite Hm. auto.
Qed.

Lemma log_failure_rolls_back_witness :
  messages (run (submission "hi" [SelectMode financial] bullish [] write_error)
              (initial (Some alice))) = [] /\
  notifications (run (submission "hi" [SelectMode financial] bullish [] write_error)
                   (initial (Some alice))) = 1.
Proof.
  destruct (log_failure_rolls_back "hi" [SelectMode financial] bullish [] write_error
              (initial (Some alice)))
    as (Hm & _ & Hn & _); try reflexivity.
  split; [exact Hm | exact Hn].
Defined.

(** C1 as stated fails: the answer "Bullish" arrives, the insert reports an
    error, and the conversation is empty again, not one exchange long. *)
Lemma log_failure_keeps_exchange_counterexample :
  rejects "hi" (initial (Some alice)) = false /\
  failed bullish = false /\
  insert_failed write_error = true /\
  messages (settle "hi" bullish write_error (initial (Some alice))) = [] /\
  length (messages (settle "hi" bullish write_error (initial (Some alice))))
    <> length (messages (initial (Some alice))) + 1.
Proof. repeat split. vm_compute. discriminate. Qed.

(** C2.  For every prompt, mode and behaviour of the network,
    [callChatAPI] returns a string and never throws; when [fetch] rejects
    or the status is outside 200-299 the string is the fixed text "Sorry,
    there was an error connecting to the assistant. Please try again
    later." *)
Theorem callChatAPI_never_throws fetch a p :
  (exists t, callChatAPI fetch a p = Return t) /\
  (failed (fetch (chat_request a p)) = true ->
   callChatAPI fetch a p =
   Return "Sorry, there was an error connecting to the assistant. Please try again later.").
Proof.
  split; [apply callChatAPI_returns |].
  intros Hf. destruct (fetch (chat_request a p)) as [e | r] eqn:Ho.
  - exact (callChatAPI_rejected fetch a p e Ho).
  - simpl in Hf. apply negb_true_iff in Hf.
    exact (callChatAPI_not_ok fetch a p r Ho Hf).
Qed.

Lemma callChatAPI_never_throws_witness :
  callChatAPI (fun _ => Rejected (FetchFailure "Failed to fetch")) financial "hi" =
  Return "Sorry, there was an error connecting to the assistant. Please try again later.".
Proof.
  apply (proj2 (callChatAPI_never_throws
                  (fun _ => Rejected (FetchFailure "Failed to fetch")) financial "hi")).
  reflexivity.
Defined.

(** C3 (amended).  If the conversation is empty and a valid prompt is
    submitted while the gateway answers with status 500, then once settled
    the busy flag is clear; when the log write succeeds the conversation is
    the single exchange of the trimmed prompt with the connection-error
    text and no notification has been raised; when the log write fails the
    conversation is empty and exactly one notification has been raised. *)
Theorem gateway_500_is_masked p b w s :
  messages s = [] -> rejects p s = false ->
  loading (settle p (Responded (mkResponse 500 b)) w s) = false /\
  (insert_failed w = false ->
   messages (settle p (Responded (mkResponse 500 b)) w s) =
     [mkMessage (trim p)
        "Sorry, there was an error connecting to the assistant. Please try again later."] /\
   notifications (settle p (Responded (mkResponse 500 b)) w s) = notifications s) /\
  (insert_failed w = true ->
   messages (settle p (Responded (mkResponse 500 b)) w s) = [] /\
   notifications (settle p (Responded (mkResponse 500 b)) w s) = notifications s + 1).
Proof.
  intros Hm Hr. unfold settle. rewrite <- submission_alone.
  assert (Ht : callChatAPI (fun _ => Responded (mkResponse 500 b)) (assistantType s) (trim p)
               = Return connection_error) by reflexivity.
  split; [| split].
  - destruct (insert_failed w) eqn:Hw.
    + now destruct (submission_insert_failed p [] (Responded (mkResponse 500 b)) [] w s
                       Hr eq_refl eq_refl Hw).
    + rewrite (insert_failed_cases w Hw).
      now destruct (submission_inserted p [] (Responded (mkResponse 500 b)) [] s _
                       Hr eq_refl eq_refl Ht).
  - intros Hw. rewrite (insert_failed_cases w Hw).
    destruct (submission_inserted p [] (Responded (mkResponse 500 b)) [] s _
                       Hr eq_refl eq_refl Ht)
      as (_ & Hm' & _ & _ & Hn).
    rewrite Hm', Hm, Hn. split; reflexivity.
  - intros Hw.
    destruct (submission_insert_failed p [] (Responded (mkResponse 500 b)) [] w s
                Hr eq_refl eq_refl Hw) as (_ & Hm' & _ & _ & Hn).
    rewrite Hm', Hm, Hn. split; reflexivity.
Qed.

Lemma gateway_500_is_masked_witness :
  loading (settle "hi" (Responded (mkResponse 500 NotJson)) Inserted (initial (Some alice)))
  = false.
Proof.
  apply (gateway_500_is_masked "hi" NotJson Inserted (initial (Some alice)));
    reflexivity.
Defined.

(** C3 as stated fails: with status 500 and a successful insert the
    conversation holds the masked answer and no notification is raised. *)
Lemma gateway_500_rolls_back_counterexample :
  messages (initial (Some alice)) = [] /\
  rejects "hi" (initial (Some alice)) = false /\
  messages (settle "hi" status_500 Inserted (initial (Some alice))) =
    [mkMessage "hi"
       "Sorry, there was an error connecting to the assistant. Please try again later."] /\
  notifications (settle "hi" status_500 Inserted (initial (Some alice))) = 0 /\
  ~ (messages (settle "hi" status_500 Inserted (initial (Some alice))) = [] /\
     notifications (settle "hi" status_500 Inserted (initial (Some alice))) = 1 /\
     loading (settle "hi" status_500 Inserted (initial (Some alice))) = false).
Proof.
  repeat split. intros (H & _). vm_compute in H. discriminate.
Qed.

(** C4.  A call of submit whose precondition fails (the prompt is empty
    after trimming, there is no identity, or the session is busy) leaves
    the session as it was: the conversation and its length, the busy flag,
    and the notifications raised are unchanged. *)
Theorem handleSubmit_rejected_is_noop p s :
  trim p = "" \/ user s = None \/ loading s = true ->
  handleSubmit p s = s /\
  messages (handleSubmit p s) = messages s /\
  length (messages (handleSubmit p s)) = length (messages s) /\
  loading (handleSubmit p s) = loading s /\
  notifications (handleSubmit p s) = notifications s.
Proof.
  intros H.
  assert (Hr : rejects p s = true).
  { unfold rejects. destruct H as [H | [H | H]].
    - now rewrite H.
    - rewrite H. now rewrite orb_true_r.
    - rewrite H. now rewrite orb_true_r. }
  rewrite (handleSubmit_rejected p s Hr). repeat split.
Qed.

Lemma handleSubmit_rejected_is_noop_witness :
  handleSubmit "   " (initial (Some alice)) = initial (Some alice) /\
  handleSubmit "hi" (initial None) = initial None /\
  handleSubmit "again" (handleSubmit "hi" (initial (Some alice)))
  = handleSubmit "hi" (initial (Some alice)).
Proof.
  split; [| split].
  - apply (handleSubmit_rejected_is_noop "   " (initial (Some alice))).
    left. reflexivity.
  - apply (handleSubmit_rejected_is_noop "hi" (initial None)).
    right. left. reflexivity.
  - apply (handleSubmit_rejected_is_noop "again" (handleSubmit "hi" (initial (Some alice)))).
    right. right. reflexivity.
Defined.

(** C5 (amended).  For every prompt that is not empty after trimming,
    submitted with an identity and with the busy flag clear, the gateway
    call yields a text; once the submission has settled the busy flag is
    clear, and when the log write succeeds the conversation is the one
    before the call followed by exactly one exchange of the trimmed prompt
    and that text (one longer), but when the log write fails the
    conversation is the one before the call (no longer). *)
Theorem accepted_submission_growth p before g after w s :
  rejects p s = false -> quiet before = true -> quiet after = true ->
  exists t,
    callChatAPI (fun _ => g) (assistantType s) (trim p) = Return t /\
    loading (run (submission p before g after w) s) = false /\
    (insert_failed w = false ->
     messages (run (submission p before g after w) s)
       = messages s ++ [mkMessage (trim p) t] /\
     length (messages (run (submission p before g after w) s))
       = length (messages s) + 1) /\
    (insert_failed w = true ->
     messages (run (submission p before g after w) s) = messages s /\
     length (messages (run (submission p before g after w) s))
       = length (messages s)).
Proof.
  intros Hr Hb Ha.
  destruct (callChatAPI_returns (fun _ => g) (assistantType s) (trim p)) as [t Ht].
  exists t. split; [exact Ht |]. split; [| split].
  - destruct (insert_failed w) eqn:Hw.
    + now destruct (submission_insert_failed p before g after w s Hr Hb Ha Hw).
    + rewrite (insert_failed_cases w Hw).
      now destruct (submission_inserted p before g after s t Hr Hb Ha Ht).
  - intros Hw. rewrite (insert_failed_cases w Hw).
    destruct (submission_inserted p before g after s t Hr Hb Ha Ht) as (_ & Hm & _).
    rewrite Hm, length_app. split; reflexivity.
  - intros Hw.
    destruct (submission_insert_failed p before g after w s Hr Hb Ha Hw) as (_ & Hm & _).
    rewrite Hm. split; reflexivity.
Qed.

Lemma accepted_submission_growth_witness :
  exists t,
    callChatAPI (fun _ => bullish) general (trim " hi ") = Return t /\
    loading (run (submission " hi " [Change "x"] bullish [SelectMode financial] Inserted)
               (initial (Some alice))) = false /\
    (insert_failed Inserted = false ->
     messages (run (submission " hi " [Change "x"] bullish [SelectMode financial] Inserted)
                 (initial (Some alice)))
       = [] ++ [mkMessage (trim " hi ") t] /\
     length (messages (run (submission " hi " [Change "x"] bullish [SelectMode financial]
                              Inserted) (initial (Some alice))))
       = 0 + 1) /\
    (insert_failed Inserted = true ->
     messages (run (submission " hi " [Change "x"] bullish [SelectMode financial] Inserted)
                 (initial (Some alice))) = [] /\
     length (messages (run (submission " hi " [Change "x"] bullish [SelectMode financial]
                              Inserted) (initial (Some alice))))
       = 0).
Proof.
  apply (accepted_submission_growth " hi " [Change "x"] bullish [SelectMode financial]
           Inserted (initial (Some alice))); reflexivity.
Defined.

(** C5 as stated fails: a submission whose log write fails settles with
    the conversation as long as before, not one longer. *)
Lemma one_more_exchange_counterexample :
  rejects "hi" (initial (Some alice)) = false /\
  loading (settle "hi" bullish write_error (initial (Some alice))) = false /\
  length (messages (settle "hi" bullish write_error (initial (Some alice)))) = 0 /\
  length (messages (settle "hi" bullish write_error (initial (Some alice))))
    <> length (messages (initial (Some alice))) + 1.
Proof. repeat split. vm_compute. discriminate. Qed.

(** C6.  With an empty conversation, the general mode, an identity and
    the busy flag clear, submitting "What's the current market sentiment
    for Bitcoin?" while the gateway answers with a 2xx status and the body
    [{response: "Bullish"}] and the insert succeeds settles with the
    conversation [[{query: "What's the current market sentiment for
    Bitcoin?", response: "Bullish"}]], the busy flag clear and the draft
    empty. *)
Theorem bitcoin_scenario s u r :
  messages s = [] -> assistantType s = general -> user s = Some u -> loading s = false ->
  ok r = true -> body r = Parsed (Json (Text "Bullish")) ->
  messages (settle "What's the current market sentiment for Bitcoin?" (Responded r)
              Inserted s)
    = [mkMessage "What's the current market sentiment for Bitcoin?" "Bullish"] /\
  loading (settle "What's the current market sentiment for Bitcoin?" (Responded r)
             Inserted s) = false /\
  query (settle "What's the current market sentiment for Bitcoin?" (Responded r)
           Inserted s) = "".
Proof.
  intros Hm Ha Hu Hl Hok Hb.
  set (p := "What's the current market sentiment for Bitcoin?").
  assert (Hp : trim p = p) by reflexivity.
  assert (Hr : rejects p s = false).
  { unfold rejects. rewrite Hp, Hu, Hl. reflexivity. }
  assert (Ht : callChatAPI (fun _ => Responded r) (assistantType s) (trim p)
               = Return "Bullish").
  { rewrite (callChatAPI_ok (fun _ => Responded r) _ _ r (Text "Bullish") eq_refl Hok Hb).
    reflexivity. }
  rewrite (settle_inserted p (Responded r) s u "Bullish" Hr Hu Ht).
  cbn [messages loading query]. rewrite Hm, Hp. repeat split.
Qed.

Lemma bitcoin_scenario_witness :
  messages (settle "What's the current market sentiment for Bitcoin?" bullish Inserted
              (initial (Some alice)))
    = [mkMessage "What's the current market sentiment for Bitcoin?" "Bullish"] /\
  loading (settle "What's the current market sentiment for Bitcoin?" bullish Inserted
             (initial (Some alice))) = false /\
  query (settle "What's the current market sentiment for Bitcoin?" bullish Inserted
           (initial (Some alice))) = "".
Proof.
  apply (bitcoin_scenario (initial (Some alice)) alice
           (mkResponse 200 (Parsed (Json (Text "Bullish"))))); reflexivity.
Defined.

(** C7.  For every mode and every session, [handleAssistantChange] sets
    the mode and nothing else: the conversation (every exchange's query and
    response), the draft, the busy flag, the identity, the suspended
    submission and the effects are as before; and a submission in flight
    resumes as it would have, the change of mode apart. *)
Theorem handleAssistantChange_frame value s :
  assistantType (handleAssistantChange value s) = value /\
  messages (handleAssistantChange value s) = messages s /\
  query (handleAssistantChange value s) = query s /\
  loading (handleAssistantChange value s) = loading s /\
  user (handleAssistantChange value s) = user s /\
  inflight (handleAssistantChange value s) = inflight s /\
  effects (handleAssistantChange value s) = effects s /\
  (forall o, handleSubmit_gateway o (handleAssistantChange value s)
             = handleAssistantChange value (handleSubmit_gateway o s)) /\
  (forall w, handleSubmit_insert w (handleAssistantChange value s)
             = handleAssistantChange value (handleSubmit_insert w s)).
Proof.
  repeat split.
  - intros o. destruct s as [q l ms a u [[cm cp cu ca [| t]] |] ef]; try reflexivity.
    session. destruct (callChatAPI _ _ _); reflexivity.
  - intros w. destruct s as [q l ms a u [[cm cp cu ca [| t]] |] ef]; try reflexivity.
    destruct w; reflexivity.
Qed.

(** C8 (amended).  Provided no answer of the gateway carries the pending
    text "..." itself as its response, in every state reached from the
    first render in which the busy flag is clear, no submission is
    suspended and no exchange of the conversation has "..." as its
    response. *)
Theorem idle_conversation_is_resolved u trace :
  forallb (fun e => negb (echoes_pending e)) trace = true ->
  loading (run trace (initial u)) = false ->
  inflight (run trace (initial u)) = None /\
  Forall (fun m => response m <> "...") (messages (run trace (initial u))).
Proof.
  intros Hq Hl.
  pose proof (run_consistent trace (initial u) Hq (initial_consistent u)) as Hc.
  unfold consistent in Hc.
  destruct (inflight (run trace (initial u))) as [f |].
  - destruct Hc as (Hc & _). congruence.
  - destruct Hc as (_ & Hc). split; [reflexivity | exact Hc].
Qed.

Lemma idle_conversation_is_resolved_witness :
  inflight (run [Submit "hi"; SelectMode financial; GatewayReply status_500;
                 InsertReply Inserted; Submit "more"; GatewayReply bullish;
                 InsertReply write_error] (initial (Some alice))) = None /\
  Forall (fun m => response m <> "...")
    (messages (run [Submit "hi"; SelectMode financial; GatewayReply status_500;
                    InsertReply Inserted; Submit "more"; GatewayReply bullish;
                    InsertReply write_error] (initial (Some alice)))).
Proof.
  apply (idle_conversation_is_resolved (Some alice)
           [Submit "hi"; SelectMode financial; GatewayReply status_500;
            InsertReply Inserted; Submit "more"; GatewayReply bullish;
            InsertReply write_error]); reflexivity.
Defined.

(** C8 as stated fails: the gateway answers with the text "...", the
    insert succeeds, and the session is idle with an exchange whose
    response is "...". *)
Lemma idle_conversation_pending_counterexample :
  loading (run [Submit "hi";
                GatewayReply (Responded (mkResponse 200 (Parsed (Json (Text "...")))));
                InsertReply Inserted] (initial (Some alice))) = false /\
  messages (run [Submit "hi";
                 GatewayReply (Responded (mkResponse 200 (Parsed (Json (Text "...")))));
                 InsertReply Inserted] (initial (Some alice)))
    = [mkMessage "hi" "..."] /\
  ~ Forall (fun m => response m <> "...")
      (messages (run [Submit "hi";
                      GatewayReply (Responded (mkResponse 200 (Parsed (Json (Text "...")))));
                      InsertReply Inserted] (initial (Some alice)))).
Proof.
  repeat split. intros H. vm_compute in H.
  inversion H as [| m l Hm Hl]. apply Hm. reflexivity.
Qed.

(** C9.  If the gateway answers with a 2xx status and a body whose
    [response] member is absent, null or the empty string, [callChatAPI]
    returns "Sorry, I couldn't process your request.", a text that is
    neither empty nor the connection-error text, and does not throw. *)
Theorem callChatAPI_empty_answer fetch a p r m :
  fetch (chat_request a p) = Responded r -> ok r = true -> body r = Parsed (Json m) ->
  m = Absent \/ m = Null \/ m = Text "" ->
  callChatAPI fetch a p = Return "Sorry, I couldn't process your request." /\
  "Sorry, I couldn't process your request." <> "" /\
  "Sorry, I couldn't process your request." <>
  "Sorry, there was an error connecting to the assistant. Please try again later.".
Proof.
  intros Ho Hok Hb Hm. split; [| split; discriminate].
  rewrite (callChatAPI_ok fetch a p r m Ho Hok Hb).
  destruct Hm as [-> | [-> | ->]]; reflexivity.
Qed.

Lemma callChatAPI_empty_answer_witness :
  callChatAPI (fun _ => Responded (mkResponse 204 (Parsed (Json (Text ""))))) general "hi"
  = Return "Sorry, I couldn't process your request.".
Proof.
  apply (callChatAPI_empty_answer
           (fun _ => Responded (mkResponse 204 (Parsed (Json (Text ""))))) general "hi"
           (mkResponse 204 (Parsed (Json (Text "")))) (Text "")).
  - reflexivity.
  - reflexivity.
  - reflexivity.
  - right. right. reflexivity.
Defined.

(** C10.  When an accepted submission ends in the rollback with a
    notification, the draft is not given back the submitted text: it is
    emptied at acceptance and is empty once the submission has settled,
    while the conversation is the one before the call. *)
Theorem draft_is_not_restored p before g after w s :
  rejects p s = false -> quiet before = true -> quiet after = true ->
  insert_failed w = true ->
  query (handleSubmit p s) = "" /\
  query (run (submission p before g after w) s) = "" /\
  query (run (submission p before g after w) s) <> p /\
  query (run (submission p before g after w) s) <> trim p /\
  messages (run (submission p before g after w) s) = messages s /\
  notifications (run (submission p before g after w) s) = notifications s + 1.
Proof.
  intros Hr Hb Ha Hw.
  destruct (rejects_false _ _ Hr) as (Ht & [u Hu] & _).
  destruct (submission_insert_failed p before g after w s Hr Hb Ha Hw)
    as (_ & Hm & Hq & _ & Hn).
  rewrite Hq. repeat split; try assumption.
  - rewrite (handleSubmit_accepted p s u Hr Hu). reflexivity.
  - intros <-. discriminate.
  - intros H. rewrite <- H in Ht. discriminate.
Qed.

Lemma draft_is_not_restored_witness :
  query (run (submission "buy" [] bullish [] write_error)
           (run [Change "buy"] (initial (Some alice)))) = "".
Proof.
  apply (draft_is_not_restored "buy" [] bullish [] write_error
           (run [Change "buy"] (initial (Some alice)))); reflexivity.
Defined.

(* ===================================================================== *)
(** ** Trimming *)

Lemma trimEnd_idem s : trimEnd (trimEnd s) = trimEnd s.
Proof.
  induction s as [| c rest IH]; [reflexivity |].
  cbn [trimEnd]. destruct (trimEnd rest) as [| c' kept] eqn:E.
  - destruct (is_white_space c) eqn:Hc; [reflexivity |].
    cbn [trimEnd]. now rewrite Hc.
  - cbn [trimEnd]. cbn [trimEnd] in IH. rewrite IH. reflexivity.
Qed.

Lemma trimStart_clean s : starts_clean (trimStart s).
Proof.
  induction s as [| c rest IH]; [exact I |].
  cbn [trimStart]. destruct (is_white_space c) eqn:Hc; [exact IH | exact Hc].
Qed.

Lemma trimEnd_clean s : starts_clean s -> starts_clean (trimEnd s).
Proof.
  destruct s as [| c rest]; [trivial |]. cbn [starts_clean trimEnd]. intros Hc.
  destruct (trimEnd rest); [rewrite Hc |]; exact Hc.
Qed.

Lemma trimStart_of_clean s : starts_clean s -> trimStart s = s.
Proof.
  destruct s as [| c rest]; [trivial |]. cbn [starts_clean trimStart].
  now intros ->.
Qed.

Lemma trim_idem s : trim (trim s) = trim s.
Proof.
  unfold trim.
  rewrite (trimStart_of_clean (trimEnd (trimStart s))).
  - apply trimEnd_idem.
  - apply trimEnd_clean, trimStart_clean.
Qed.

Lemma truthy_true t : truthy t = true -> t <> "".
Proof. unfold truthy. intros H ->. discriminate. Qed.

Lemma tidy_trim p r : truthy (trim p) = true -> tidy (mkMessage (trim p) r).
Proof.
  intros H. split; cbn [msg_query]; [now apply truthy_true | apply trim_idem].
Qed.

(* ===================================================================== *)
(** ** The shape of a session *)

Lemma initial_orderly u : orderly (initial u).
Proof. split; [constructor | reflexivity]. Qed.

Lemma orderly_idle s : orderly s -> loading s = false -> inflight s = None.
Proof.
  intros (_ & H) Hl. destruct (inflight s) as [f |]; [| reflexivity].
  destruct H as (H & _). congruence.
Qed.

Lemma orderly_busy s :
  orderly s -> loading s = true -> exists f, inflight s = Some f.
Proof.
  intros (_ & H) Hl. destruct (inflight s) as [f |]; [now exists f | congruence].
Qed.

Lemma handleSubmit_orderly p s : orderly s -> orderly (handleSubmit p s).
Proof.
  intros Ho. destruct (rejects p s) eqn:Hr.
  - now rewrite handleSubmit_rejected.
  - destruct (rejects_false _ _ Hr) as (Ht & [u Hu] & Hl).
    rewrite (handleSubmit_accepted p s u Hr Hu).
    destruct Ho as (Hm & _). split; cbn [messages inflight loading].
    + apply Forall_app. split; [exact Hm |].
      constructor; [now apply tidy_trim | constructor].
    + cbn [cl_messages cl_promptText]. repeat split; try assumption.
      now exists pending.
Qed.

Lemma handleSubmit_gateway_orderly o s :
  orderly s -> orderly (handleSubmit_gateway o s).
Proof.
  intros Ho. unfold handleSubmit_gateway.
  destruct (inflight s) as [f |] eqn:Hf; [| exact Ho].
  destruct (suspended f) eqn:Hs; [| exact Ho].
  destruct Ho as (Hm & Ho). rewrite Hf in Ho. destruct Ho as (Hl & Hcl & Ht & _).
  destruct (callChatAPI _ _ _) as [t | x].
  - split; session.
    + apply Forall_app. split; [exact Hcl |].
      constructor; [now apply tidy_trim | constructor].
    + repeat split; try assumption. now exists t.
  - split; session; [exact Hcl | reflexivity].
Qed.

Lemma handleSubmit_insert_orderly w s :
  orderly s -> orderly (handleSubmit_insert w s).
Proof.
  intros Ho. unfold handleSubmit_insert.
  destruct (inflight s) as [f |] eqn:Hf; [| exact Ho].
  destruct (suspended f) eqn:Hs; [exact Ho |].
  destruct Ho as (Hm & Ho). rewrite Hf in Ho. destruct Ho as (Hl & Hcl & Ht & _).
  destruct (await_insert w); split; session; auto.
Qed.

Lemma step_orderly e s : orderly s -> orderly (step e s).
Proof.
  intros Ho. destruct e as [p | i | | k sh | v | a | u | o | w]; cbn [step].
  - now apply handleSubmit_orderly.
  - destruct (loading s); [exact Ho |].
    destruct (nth_error presetPrompts i); [now apply handleSubmit_orderly | exact Ho].
  - now apply handleSubmit_orderly.
  - destruct (loading s); [exact Ho |]. unfold handleKeyDown.
    destruct ((k =? "Enter") && negb sh); [now apply handleSubmit_orderly | exact Ho].
  - destruct (loading s); exact Ho.
  - exact Ho.
  - exact Ho.
  - now apply handleSubmit_gateway_orderly.
  - now apply handleSubmit_insert_orderly.
Qed.

Lemma run_orderly trace s : orderly s -> orderly (run trace s).
Proof.
  revert s. induction trace as [| e trace IH]; intros s Ho; cbn [run]; [exact Ho |].
  apply IH. now apply step_orderly.
Qed.

Lemma handleSubmit_keeps base p s :
  orderly s -> keeps base s -> keeps base (handleSubmit p s).
Proof.
  intros Ho Hk. destruct (rejects p s) eqn:Hr.
  - now rewrite handleSubmit_rejected.
  - destruct (rejects_false _ _ Hr) as (_ & [u Hu] & Hl).
    rewrite (handleSubmit_accepted p s u Hr Hu).
    unfold keeps, settled_messages in *. cbn [inflight cl_messages].
    now rewrite (orderly_idle s Ho Hl) in Hk.
Qed.

Lemma step_keeps base e s :
  orderly s -> keeps base s -> keeps base (step e s).
Proof.
  intros Ho Hk. destruct e as [p | i | | k sh | v | a | u | o | w]; cbn [step].
  - now apply handleSubmit_keeps.
  - destruct (loading s); [exact Hk |].
    destruct (nth_error presetPrompts i); [now apply handleSubmit_keeps | exact Hk].
  - now apply handleSubmit_keeps.
  - destruct (loading s); [exact Hk |]. unfold handleKeyDown.
    destruct ((k =? "Enter") && negb sh); [now apply handleSubmit_keeps | exact Hk].
  - destruct (loading s); exact Hk.
  - exact Hk.
  - exact Hk.
  - unfold handleSubmit_gateway, keeps, settled_messages in *.
    destruct (inflight s) as [f |] eqn:Hf; [| now rewrite Hf].
    destruct (suspended f) eqn:Hs; [| now rewrite Hf].
    destruct (callChatAPI _ _ _); session; exact Hk.
  - unfold handleSubmit_insert, keeps, settled_messages in *.
    destruct (inflight s) as [f |] eqn:Hf; [| now rewrite Hf].
    destruct (suspended f) eqn:Hs; [now rewrite Hf |].
    destruct Ho as (_ & Ho). rewrite Hf in Ho. destruct Ho as (_ & _ & _ & [r Hr]).
    destruct Hk as [rest Hk].
    destruct (await_insert w); session.
    + exists (rest ++ [mkMessage (trim (cl_promptText f)) r]).
      change (messages s = base ++ rest ++ [mkMessage (trim (cl_promptText f)) r]).
      rewrite Hr, Hk. now rewrite app_assoc.
    + now exists rest.
Qed.

Lemma run_keeps base trace s :
  orderly s -> keeps base s -> keeps base (run trace s).
Proof.
  revert s. induction trace as [| e trace IH]; intros s Ho Hk; cbn [run]; [exact Hk |].
  apply IH; [now apply step_orderly | now apply step_keeps].
Qed.

Lemma keeps_messages base s :
  orderly s -> keeps base s -> exists rest, messages s = base ++ rest.
Proof.
  intros (_ & Ho) [rest Hk]. unfold settled_messages in Hk.
  destruct (inflight s) as [f |]; [| now exists rest].
  destruct Ho as (_ & _ & _ & [r Hr]).
  exists (rest ++ [mkMessage (trim (cl_promptText f)) r]).
  rewrite Hr, Hk. now rewrite app_assoc.
Qed.

(* ===================================================================== *)
(** ** Effects *)

Lemma handleSubmit_notifications p s :
  notifications (handleSubmit p s) = notifications s.
Proof.
  destruct (rejects p s) eqn:Hr.
  - now rewrite handleSubmit_rejected.
  - destruct (rejects_false _ _ Hr) as (_ & [u Hu] & _).
    rewrite (handleSubmit_accepted p s u Hr Hu).
    unfold notifications at 1. cbn [effects]. rewrite notifications_app.
    cbn [filter is_toast length]. lia.
Qed.

Lemma step_notifications e s :
  failing_insert e = false -> notifications (step e s) = notifications s.
Proof.
  intros He. destruct e as [p | i | | k sh | v | a | u | o | w]; cbn [step].
  - apply handleSubmit_notifications.
  - destruct (loading s); [reflexivity |].
    destruct (nth_error presetPrompts i); [apply handleSubmit_notifications | reflexivity].
  - apply handleSubmit_notifications.
  - destruct (loading s); [reflexivity |]. unfold handleKeyDown.
    destruct ((k =? "Enter") && negb sh); [apply handleSubmit_notifications | reflexivity].
  - destruct (loading s); reflexivity.
  - reflexivity.
  - reflexivity.
  - unfold handleSubmit_gateway.
    destruct (inflight s) as [f |]; [| reflexivity].
    destruct (suspended f); [| reflexivity].
    destruct (callChatAPI_returns (fun _ => o) (cl_assistantType f) (trim (cl_promptText f)))
      as [t ->].
    unfold notifications at 1. cbn [effects setInflight emit setMessages].
    rewrite notifications_app. cbn [filter is_toast length]. lia.
  - cbn [failing_insert] in He. rewrite (insert_failed_cases w He).
    unfold handleSubmit_insert.
    destruct (inflight s) as [f |]; [| reflexivity].
    destruct (suspended f); [reflexivity |].
    unfold notifications at 1.
    cbn [await_insert handleSubmit_finally effects setInflight emit setLoading].
    rewrite <- app_assoc, notifications_app. cbn [filter is_toast length app]. lia.
Qed.

Lemma run_submission_effects p before g after w s u t :
  rejects p s = false -> user s = Some u ->
  quiet before = true -> quiet after = true ->
  callChatAPI (fun _ => g) (assistantType s) (trim p) = Return t ->
  effects (run (submission p before g after w) s) =
  effects s ++ [Fetch (chat_request (assistantType s) (trim p));
                Insert (mkRow (id u) (trim p) t (assistantType s));
                if insert_failed w then Toast error_toast else ScrollLater;
                Focus].
Proof.
  intros Hr Hu Hb Ha Ht.
  destruct (run_submission p before g after w s Hr Hb Ha) as (_ & _ & _ & _ & He).
  rewrite He. destruct (insert_failed w) eqn:Hw.
  - now rewrite (settle_insert_failed p g w s u t Hr Hu Ht Hw).
  - rewrite (insert_failed_cases w Hw).
    now rewrite (settle_inserted p g s u t Hr Hu Ht).
Qed.

Lemma handleSubmit_insert_clears g w s f :
  inflight s = Some f ->
  loading (handleSubmit_insert w (handleSubmit_gateway g s)) = false.
Proof.
  intros Hf. unfold handleSubmit_gateway. rewrite Hf.
  destruct (suspended f) eqn:Hs.
  - destruct (callChatAPI_returns (fun _ => g) (cl_assistantType f) (trim (cl_promptText f)))
      as [t ->].
    unfold handleSubmit_insert. cbn [inflight setInflight suspended].
    destruct (await_insert w); reflexivity.
  - unfold handleSubmit_insert. rewrite Hf, Hs.
    destruct (await_insert w); reflexivity.
Qed.

Lemma preset_clean p : In p presetPrompts -> trim p = p /\ truthy p = true.
Proof.
  unfold presetPrompts. cbn [In].
  intros [<- | [<- | [<- | [<- | [<- | []]]]]]; split; reflexivity.
Qed.

Lemma callChatAPI_failed g a p :
  failed g = true -> callChatAPI (fun _ => g) a p = Return connection_error.
Proof.
  intros Hf. destruct g as [e | r].
  - exact (callChatAPI_rejected (fun _ => Rejected e) a p e eq_refl).
  - cbn [failed] in Hf. apply negb_true_iff in Hf.
    exact (callChatAPI_not_ok (fun _ => Responded r) a p r eq_refl Hf).
Qed.

(* ===================================================================== *)
(** ** Further properties of the handlers *)

(** X1.  An accepted submission, once settled, has added exactly four
    effects in this order: the request to the endpoint of the mode selected
    at acceptance with the trimmed prompt, the insert of a row with the
    identity and the mode of acceptance, the trimmed prompt and the text of
    the gateway, then the scroll timer if the insert succeeded or the error
    notification if it failed, then the focus on the input.  A change of
    mode or of identity while the submission runs does not change the row. *)
Theorem submission_effect_trace p before g after w s u t :
  rejects p s = false -> user s = Some u ->
  quiet before = true -> quiet after = true ->
  callChatAPI (fun _ => g) (assistantType s) (trim p) = Return t ->
  effects (run (submission p before g after w) s) =
  effects s ++ [Fetch (chat_request (assistantType s) (trim p));
                Insert (mkRow (id u) (trim p) t (assistantType s));
                if insert_failed w then Toast error_toast else ScrollLater;
                Focus].
Proof.
  intros Hr Hu Hb Ha Ht.
  destruct (run_submission p before g after w s Hr Hb Ha) as (_ & _ & _ & _ & He).
  rewrite He. destruct (insert_failed w) eqn:Hw.
  - now rewrite (settle_insert_failed p g w s u t Hr Hu Ht Hw).
  - rewrite (insert_failed_cases w Hw).
    now rewrite (settle_inserted p g s u t Hr Hu Ht).
Qed.

Lemma submission_effect_trace_witness :
  effects (run (submission " hi " [SelectMode financial; AuthChange None] bullish
                  [SelectMode general] Inserted) (initial (Some alice))) =
  [Fetch (mkRequest "https://investo-server-dlii.onrender.com/chat" "POST"
            "application/json" "hi");
   Insert (mkRow "u-1" "hi" "Bullish" general);
   ScrollLater; Focus].
Proof.
  apply (submission_effect_trace " hi " [SelectMode financial; AuthChange None] bullish
           [SelectMode general] Inserted (initial (Some alice)) alice "Bullish");
    reflexivity.
Defined.



(** X3.  When the gateway answers with a 2xx status and a body whose
    [response] is a string that is not empty, [callChatAPI] returns that
    string unchanged. *)
Theorem callChatAPI_passes_text fetch a p r t :
  fetch (chat_request a p) = Responded r -> ok r = true ->
  body r = Parsed (Json (Text t)) -> t <> "" ->
  callChatAPI fetch a p = Return t.
Proof.
  intros Ho Hok Hb Ht.
  rewrite (callChatAPI_ok fetch a p r (Text t) Ho Hok Hb).
  cbn [or_else]. unfold truthy.
  destruct (t =? "") eqn:E; [| reflexivity].
  apply String.eqb_eq in E. contradiction.
Qed.

Lemma callChatAPI_passes_text_witness :
  callChatAPI (fun _ => Responded (mkResponse 201 (Parsed (Json (Text " up "))))) financial
    "hi" = Return " up ".
Proof.
  apply (callChatAPI_passes_text
           (fun _ => Responded (mkResponse 201 (Parsed (Json (Text " up "))))) financial
           "hi" (mkResponse 201 (Parsed (Json (Text " up "))))).
  - reflexivity.
  - reflexivity.
  - reflexivity.
  - discriminate.
Defined.

(** X4.  When the gateway answers with a 2xx status but the body is not
    JSON, or is the JSON value null, [callChatAPI] returns the
    connection-error text, not the no-answer text. *)
Theorem callChatAPI_unreadable_body fetch a p r :
  fetch (chat_request a p) = Responded r -> ok r = true ->
  body r = NotJson \/ body r = Parsed JsonNull ->
  callChatAPI fetch a p =
  Return "Sorry, there was an error connecting to the assistant. Please try again later.".
Proof.
  intros Ho Hok Hb. unfold callChatAPI. rewrite Ho. cbn [await_fetch bind].
  rewrite Hok. cbn [negb]. unfold json.
  destruct Hb as [-> | ->]; reflexivity.
Qed.

Lemma callChatAPI_unreadable_body_witness :
  callChatAPI (fun _ => Responded (mkResponse 200 NotJson)) general "hi" =
  Return "Sorry, there was an error connecting to the assistant. Please try again later.".
Proof.
  apply (callChatAPI_unreadable_body (fun _ => Responded (mkResponse 200 NotJson))
           general "hi" (mkResponse 200 NotJson)).
  - reflexivity.
  - reflexivity.
  - left. reflexivity.
Defined.


(** X6.  When the gateway call of an accepted submission fails (the fetch
    rejects or the status is outside 200-299), the row sent to [ai_queries]
    carries the connection-error text as the response of the assistant. *)
Theorem masked_failure_is_logged p before g after w s u :
  rejects p s = false -> user s = Some u ->
  quiet before = true -> quiet after = true -> failed g = true ->
  In (Insert (mkRow (id u) (trim p)
                "Sorry, there was an error connecting to the assistant. Please try again later."
                (assistantType s)))
     (effects (run (submission p before g after w) s)).
Proof.
  intros Hr Hu Hb Ha Hf.
  rewrite (run_submission_effects p before g after w s u connection_error Hr Hu Hb Ha
             (callChatAPI_failed g (assistantType s) (trim p) Hf)).
  apply in_or_app. right. right. left. reflexivity.
Qed.

Lemma masked_failure_is_logged_witness :
  In (Insert (mkRow "u-1" "hi"
                "Sorry, there was an error connecting to the assistant. Please try again later."
                general))
     (effects (run (submission "hi" [] status_500 [] Inserted) (initial (Some alice)))).
Proof.
  apply (masked_failure_is_logged "hi" [] status_500 [] Inserted (initial (Some alice))
           alice); reflexivity.
Defined.

(** X7.  In every state reached from the first render, the busy flag is
    set exactly when a submission is suspended, and then the conversation is
    the one captured at acceptance followed by exactly one exchange, that of
    the trimmed prompt: there is never more than one unsettled exchange and
    it is the last one. *)
Theorem busy_iff_suspended u trace :
  (loading (run trace (initial u)) = true <-> inflight (run trace (initial u)) <> None) /\
  (forall f, inflight (run trace (initial u)) = Some f ->
     exists r, messages (run trace (initial u))
               = cl_messages f ++ [mkMessage (trim (cl_promptText f)) r]).
Proof.
  destruct (run_orderly trace (initial u) (initial_orderly u)) as (_ & Ho).
  destruct (inflight (run trace (initial u))) as [f |].
  - destruct Ho as (Hl & _ & _ & Hr). split.
    + split; [discriminate | intros _; exact Hl].
    + intros f' [= <-]. exact Hr.
  - split.
    + split; [congruence | intros H; now elim H].
    + discriminate.
Qed.

(** X8.  From every state reached from the first render in which the busy
    flag is set, the answers of the gateway and of the insert, whatever
    they are and whatever the user does in between, clear the flag. *)
Theorem busy_clears u trace before g after w :
  loading (run trace (initial u)) = true ->
  quiet before = true -> quiet after = true ->
  loading (run (before ++ GatewayReply g :: after ++ [InsertReply w])
             (run trace (initial u))) = false.
Proof.
  intros Hl Hb Ha.
  pose proof (run_orderly trace (initial u) (initial_orderly u)) as Ho.
  set (s := run trace (initial u)) in *.
  destruct (orderly_busy s Ho Hl) as [f Hf].
  rewrite run_app. cbn [run]. rewrite run_app. cbn [run step].
  pose proof (run_busy before s Hl Hb) as H1.
  pose proof (handleSubmit_gateway_same g s (run before s) H1) as H2.
  assert (Hl2 : loading (handleSubmit_gateway g (run before s)) = true).
  { rewrite handleSubmit_gateway_loading. destruct H1 as (-> & _). exact Hl. }
  pose proof (run_busy after _ Hl2 Ha) as H3.
  destruct (handleSubmit_insert_same w _ _ (same_flight_trans _ _ _ H2 H3)) as (-> & _).
  exact (handleSubmit_insert_clears g w s f Hf).
Qed.

Lemma busy_clears_witness :
  loading (run ([Submit "again"; Change "x"] ++ GatewayReply status_500
                  :: [SelectMode financial] ++ [InsertReply write_error])
             (run [Submit "hi"] (initial (Some alice)))) = false.
Proof.
  apply (busy_clears (Some alice) [Submit "hi"] [Submit "again"; Change "x"] status_500
           [SelectMode financial] write_error); reflexivity.
Defined.

(** X9.  The exchanges of an idle session are never edited or removed
    afterwards: if a state reached from the first render has the busy flag
    clear, then after any further events the conversation begins with the
    conversation of that state. *)
Theorem history_is_kept u before after :
  loading (run before (initial u)) = false ->
  exists rest,
    messages (run (before ++ after) (initial u))
    = messages (run before (initial u)) ++ rest.
Proof.
  intros Hl. rewrite run_app.
  pose proof (run_orderly before (initial u) (initial_orderly u)) as Ho.
  set (s := run before (initial u)) in *.
  assert (Hk : keeps (messages s) s).
  { exists []. unfold settled_messages.
    rewrite (orderly_idle s Ho Hl). now rewrite app_nil_r. }
  apply keeps_messages.
  - now apply run_orderly.
  - now apply run_keeps.
Qed.

Lemma history_is_kept_witness :
  exists rest,
    messages (run ([Submit "hi"; GatewayReply bullish; InsertReply Inserted]
                   ++ [Submit "more"; GatewayReply status_500; InsertReply write_error;
                       Submit "last"])
                (initial (Some alice)))
    = messages (run [Submit "hi"; GatewayReply bullish; InsertReply Inserted]
                  (initial (Some alice))) ++ rest.
Proof.
  apply (history_is_kept (Some alice)
           [Submit "hi"; GatewayReply bullish; InsertReply Inserted]
           [Submit "more"; GatewayReply status_500; InsertReply write_error;
            Submit "last"]).
  reflexivity.
Defined.

(** X10.  A notification is raised only when an insert fails: over any
    sequence of events in which no answer of the insert reports an error or
    rejects, whatever the gateway does, the number of notifications raised
    does not change. *)
Theorem no_toast_without_insert_failure trace s :
  forallb (fun e => negb (failing_insert e)) trace = true ->
  notifications (run trace s) = notifications s.
Proof.
  revert s. induction trace as [| e trace IH]; intros s Hq; cbn [run]; [reflexivity |].
  cbn [forallb] in Hq. apply andb_true_iff in Hq as [He Hq].
  apply negb_true_iff in He.
  rewrite (IH _ Hq). now apply step_notifications.
Qed.

Lemma no_toast_without_insert_failure_witness :
  notifications (run [Submit "hi"; GatewayReply (Rejected (FetchFailure "offline"));
                      InsertReply Inserted; Submit "more"; GatewayReply status_500;
                      InsertReply Inserted] (initial (Some alice)))
  = notifications (initial (Some alice)).
Proof.
  apply (no_toast_without_insert_failure
           [Submit "hi"; GatewayReply (Rejected (FetchFailure "offline"));
            InsertReply Inserted; Submit "more"; GatewayReply status_500;
            InsertReply Inserted] (initial (Some alice))).
  reflexivity.
Defined.

(** X11.  In every state reached from the first render, the query of
    every exchange of the conversation is not empty and has no white space
    at either end: trimming it changes nothing. *)
Theorem stored_queries_are_trimmed u trace :
  Forall (fun m => msg_query m <> "" /\ trim (msg_query m) = msg_query m)
    (messages (run trace (initial u))).
Proof.
  destruct (run_orderly trace (initial u) (initial_orderly u)) as (Hm & _).
  exact Hm.
Qed.



(** X13.  Clicking a preset button in a session with an identity and the
    busy flag clear starts a submission of exactly the text of the button:
    the pending exchange of that text is appended, the draft is emptied
    whatever it held, the busy flag is set and the request for that text is
    sent.  A click with no button at that position changes nothing. *)
Theorem preset_click_submits index s :
  (forall prompt u,
     nth_error presetPrompts index = Some prompt ->
     user s = Some u -> loading s = false ->
     messages (step (PresetClick index) s) = messages s ++ [mkMessage prompt "..."] /\
     query (step (PresetClick index) s) = "" /\
     loading (step (PresetClick index) s) = true /\
     effects (step (PresetClick index) s)
       = effects s ++ [Fetch (chat_request (assistantType s) prompt)]) /\
  (nth_error presetPrompts index = None -> step (PresetClick index) s = s).
Proof.
  split.
  - intros prompt u Hn Hu Hl. cbn [step]. rewrite Hl, Hn.
    destruct (preset_clean prompt (nth_error_In _ _ Hn)) as (Ht & Hp).
    assert (Hr : rejects prompt s = false).
    { unfold rejects. rewrite Ht, Hp, Hu, Hl. reflexivity. }
    rewrite (handleSubmit_accepted prompt s u Hr Hu).
    cbn [messages query loading effects]. rewrite Ht. repeat split.
  - intros Hn. cbn [step]. rewrite Hn. now destruct (loading s).
Qed.

Lemma preset_click_submits_witness :
  messages (step (PresetClick 1) (run [Change "draft"] (initial (Some alice))))
  = [mkMessage "Explain the concept of DeFi in simple terms" "..."] /\
  query (step (PresetClick 1) (run [Change "draft"] (initial (Some alice)))) = "" /\
  step (PresetClick 5) (initial (Some alice)) = initial (Some alice).
Proof.
  split; [| split].
  - apply (proj1 (preset_click_submits 1 (run [Change "draft"] (initial (Some alice))))
             "Explain the concept of DeFi in simple terms" alice); reflexivity.
  - apply (proj1 (preset_click_submits 1 (run [Change "draft"] (initial (Some alice))))
             "Explain the concept of DeFi in simple terms" alice); reflexivity.
  - apply (proj2 (preset_click_submits 5 (initial (Some alice)))). reflexivity.
Defined.

(** X14.  While the busy flag is set, no sequence of events of the user
    (submitting, clicking a preset, pressing keys, typing, changing the
    mode, a change of identity) changes the conversation, the draft, the
    busy flag, the suspended submission or the effects. *)
Theorem busy_ignores_the_user trace s :
  loading s = true -> quiet trace = true ->
  messages (run trace s) = messages s /\
  query (run trace s) = query s /\
  loading (run trace s) = true /\
  inflight (run trace s) = inflight s /\
  effects (run trace s) = effects s.
Proof.
  intros Hl Hq. destruct (run_busy trace s Hl Hq) as (H1 & H2 & H3 & H4 & H5).
  rewrite H1. auto.
Qed.

Lemma busy_ignores_the_user_witness :
  messages (run [Submit "again"; PresetClick 0; Change "x"; KeyDown "Enter" false;
                 FormSubmit; SelectMode financial; AuthChange None]
              (run [Submit "hi"] (initial (Some alice))))
  = [mkMessage "hi" "..."].
Proof.
  apply (busy_ignores_the_user
           [Submit "again"; PresetClick 0; Change "x"; KeyDown "Enter" false;
            FormSubmit; SelectMode financial; AuthChange None]
           (run [Submit "hi"] (initial (Some alice)))); reflexivity.
Defined.
